(** * ChromaDesk: the headless daily-update pipeline of [chromadesk/main.py]

    A shallow embedding of the branch [if args.headless:] of [main()], the
    one taken when neither [--internal-set-config] nor [--version] is
    given, and the properties of the daily update pipeline checked
    against it.

    The branch talks to five collaborators that live in other modules
    ([chromadesk.core.config], [bing], [downloader], [history],
    [wallpaper]).  They are taken here as the fields of an environment
    record: each call either returns a value or raises a Python exception
    (one derived from [Exception], which is what the handlers of the
    branch catch).  The configuration object is Python's
    [configparser.ConfigParser], whose three accessors used by the branch
    are modelled on a finite map.  A run is a function of the environment
    and of the world it starts in (configuration file and files on disk)
    to an exit code, a final world and the trace of collaborator calls and
    log records. *)

From Stdlib Require Import ZArith List Ascii String Lia.
From stdpp Require Import base gmap strings list.

Local Open Scope string_scope.
Local Open Scope Z_scope.
Local Open Scope list_scope.

(** ** Python values and call outcomes *)

(** A call into a collaborator returns or raises; [Raises] carries
    [str(e)] of the exception, which is what the handlers print. *)
Inductive outcome (A : Type) : Type :=
| Returns (a : A)
| Raises (msg : string).
Arguments Returns {A} a.
Arguments Raises {A} msg.

(** The values stored in the [bing_info] dictionary. *)
Inductive pyval : Type :=
| VNone
| VStr (s : string).

#[global] Instance pyval_eq_dec : EqDecision pyval.
Proof. solve_decision. Defined.

(** Python truthiness: [None] and the empty string are false. *)
Definition truthy (v : pyval) : bool :=
  match v with
  | VNone => false
  | VStr s => negb (String.eqb s "")
  end.

(** [str(v)], as an f-string renders it. *)
Definition py_str (v : pyval) : string :=
  match v with
  | VNone => "None"
  | VStr s => s
  end.

(** [d.get(k)]: [None] when the key is absent. *)
Definition dict_get (d : gmap string pyval) (k : string) : pyval :=
  default VNone (d !! k).

(** [d.get(k, dflt)]. *)
Definition dict_get_default (d : gmap string pyval) (k : string) (dflt : pyval) : pyval :=
  default dflt (d !! k).

(** [d[k]]: raises [KeyError(k)], whose [str] is the quoted key. *)
Definition dict_subscript (d : gmap string pyval) (k : string) : outcome pyval :=
  match d !! k with
  | Some v => Returns v
  | None => Raises ("'" +:+ k +:+ "'")
  end.

(** ** [configparser.ConfigParser] *)

Module ConfigParser.

(** Raw option values, keyed by (section, option). *)
Abbreviation t := (gmap (string * string) string).

Definition lower_ascii (c : ascii) : ascii :=
  let n := nat_of_ascii c in
  if (Nat.leb 65 n && Nat.leb n 90)%bool then ascii_of_nat (n + 32) else c.

Fixpoint lower (s : string) : string :=
  match s with
  | EmptyString => EmptyString
  | String c r => String (lower_ascii c) (lower r)
  end.

(** [BOOLEAN_STATES] *)
Definition boolean_states (s : string) : option bool :=
  if String.eqb s "1" then Some true
  else if String.eqb s "yes" then Some true
  else if String.eqb s "true" then Some true
  else if String.eqb s "on" then Some true
  else if String.eqb s "0" then Some false
  else if String.eqb s "no" then Some false
  else if String.eqb s "false" then Some false
  else if String.eqb s "off" then Some false
  else None.

(** [_convert_to_boolean] *)
Definition convert_to_boolean (value : string) : outcome bool :=
  match boolean_states (lower value) with
  | Some b => Returns b
  | None => Raises ("Not a boolean: " +:+ value)
  end.

(** [config.get(section, option, fallback=...)]: the fallback replaces
    a missing section or option. *)
Definition get (config : t) (section option : string) (fallback : string) : string :=
  default fallback (config !! (section, option)).

(** [config.getboolean(section, option, fallback=...)]: the fallback
    covers a missing option only; a value outside [BOOLEAN_STATES]
    raises [ValueError]. *)
Definition getboolean (config : t) (section option : string) (fallback : bool)
  : outcome bool :=
  match config !! (section, option) with
  | None => Returns fallback
  | Some value => convert_to_boolean value
  end.

(** [int(value)] on a string, base 10: surrounding whitespace, an
    optional sign, then digits with single underscores between them. *)
Definition is_space (c : ascii) : bool :=
  let n := nat_of_ascii c in
  ((Nat.leb 9 n && Nat.leb n 13) || (Nat.leb 28 n && Nat.leb n 32))%bool.

Definition digit_of (c : ascii) : option Z :=
  let n := nat_of_ascii c in
  if (Nat.leb 48 n && Nat.leb n 57)%bool then Some (Z.of_nat n - 48) else None.

Fixpoint lstrip (s : list ascii) : list ascii :=
  match s with
  | c :: r => if is_space c then lstrip r else s
  | [] => []
  end.

Definition strip (s : list ascii) : list ascii :=
  rev (lstrip (rev (lstrip s))).

(** [after_digit] tells whether the previous character was a digit, which
    is when an underscore or the end of the literal is allowed. *)
Fixpoint digits (s : list ascii) (after_digit : bool) (acc : Z) : option Z :=
  match s with
  | [] => if after_digit then Some acc else None
  | c :: r =>
      match digit_of c with
      | Some d => digits r true (10 * acc + d)
      | None =>
          if (Ascii.eqb c "_" && after_digit)%bool then digits r false acc else None
      end
  end.

Definition py_int (value : string) : outcome Z :=
  let parsed :=
    match strip (list_ascii_of_string value) with
    | c :: r =>
        if Ascii.eqb c "-" then Z.opp <$> digits r false 0
        else if Ascii.eqb c "+" then digits r false 0
        else digits (c :: r) false 0
    | [] => None
    end in
  match parsed with
  | Some n => Returns n
  | None => Raises ("invalid literal for int() with base 10: '" +:+ value +:+ "'")
  end.

(** [config.getint(section, option, fallback=...)] *)
Definition getint (config : t) (section option : string) (fallback : Z)
  : outcome Z :=
  match config !! (section, option) with
  | None => Returns fallback
  | Some value => py_int value
  end.

End ConfigParser.

(** ** The world the run acts on, and what it does to it *)

(** The persisted configuration file and the regular files on disk. *)
Record World : Type := mkWorld {
  config_file : ConfigParser.t;
  files : gset string;
}.

Inductive level : Type := INFO | WARNING | ERROR | CRITICAL.

(** One entry per collaborator call (recorded when the call is made,
    whatever its outcome) and per log record. *)
Inductive event : Type :=
| Log (lvl : level) (msg : string)
| LoadConfig
| FetchBingWallpaperInfo (region : string)
| EnsureWallpaperDir
| GetWallpaperDir
| GetBingFilename (date url : pyval)
| IsFile (path : string)
| DownloadImage (url : pyval) (path : string)
| SetGnomeWallpaper (path : string)
| SetSetting (section key value : string)
| CleanupWallpaperHistory (keep : Z)
| SendNotification (title body : string).

#[global] Instance level_eq_dec : EqDecision level.
Proof. solve_decision. Defined.
#[global] Instance event_eq_dec : EqDecision event.
Proof. solve_decision. Defined.

(** The collaborators of one run.  Calls that change the disk or the
    configuration file also return the new contents. *)
Record Env : Type := mkEnv {
  (* date.today().isoformat() *)
  today : string;
  (* the imports of chromadesk.core at the head of the branch *)
  import_core : outcome unit;
  (* core_config.load_config(), reading the configuration file *)
  load_config : ConfigParser.t -> outcome ConfigParser.t;
  (* core_bing.fetch_bing_wallpaper_info(region=...): None or a dict *)
  fetch_bing_wallpaper_info : string -> outcome (option (gmap string pyval));
  (* core_history *)
  ensure_wallpaper_dir : outcome bool;
  get_wallpaper_dir : outcome string;
  get_bing_filename : pyval -> pyval -> outcome string;
  cleanup_wallpaper_history : Z -> gset string -> outcome unit * gset string;
  (* core_downloader.download_image(url, save_path) *)
  download_image : pyval -> string -> gset string -> outcome bool * gset string;
  (* core_wallpaper *)
  set_gnome_wallpaper : string -> outcome bool;
  send_notification : string -> string -> outcome unit;
  (* core_config.set_setting(section, key, value) *)
  set_setting : string -> string -> string -> ConfigParser.t
                -> outcome bool * ConfigParser.t;
}.

(** ** A monad for exceptions, the world and the trace *)

(** A computation threads the world and the trace of what happened so
    far, oldest entry first, and returns or raises. *)
Definition M (A : Type) : Type :=
  World -> list event -> outcome A * World * list event.

#[global] Instance M_ret : MRet M :=
  fun A a w t => (Returns a, w, t).

#[global] Instance M_bind : MBind M :=
  fun A B k m w t =>
    match m w t with
    | (Returns a, w1, t1) => k a w1 t1
    | (Raises e, w1, t1) => (Raises e, w1, t1)
    end.

(** [raise RuntimeError(msg)] *)
Definition raise {A : Type} (msg : string) : M A :=
  fun w t => (Raises msg, w, t).

(** [try: body  except Exception as e: handler(e)] *)
Definition try_except {A : Type} (body : M A) (handler : string -> M A) : M A :=
  fun w t =>
    match body w t with
    | (Returns a, w1, t1) => (Returns a, w1, t1)
    | (Raises e, w1, t1) => handler e w1 t1
    end.

Definition emit (e : event) : M unit :=
  fun w t => (Returns tt, w, t ++ [e]).

Definition log (lvl : level) (msg : string) : M unit := emit (Log lvl msg).

(** An outcome computed without a collaborator call (a [ConfigParser]
    accessor, a dictionary subscript). *)
Definition lift {A : Type} (o : outcome A) : M A :=
  fun w t => (o, w, t).

(** A pure call: record it, then return or raise. *)
Definition call {A : Type} (e : event) (o : outcome A) : M A :=
  fun w t => (o, w, t ++ [e]).

(** A call that may rewrite the files on disk. *)
Definition call_fs {A : Type} (e : event) (f : gset string -> outcome A * gset string) : M A :=
  fun w t => let '(o, fs) := f (files w) in
             (o, {| config_file := config_file w; files := fs |}, t ++ [e]).

(** A call that may rewrite the configuration file. *)
Definition call_cfg {A : Type} (e : event)
    (f : ConfigParser.t -> outcome A * ConfigParser.t) : M A :=
  fun w t => let '(o, c) := f (config_file w) in
             (o, {| config_file := c; files := files w |}, t ++ [e]).

(** [save_path.is_file()] *)
Definition is_file (path : string) : M bool :=
  fun w t => (Returns (bool_decide (path ∈ files w)), w, t ++ [IsFile path]).

(** [wallpaper_dir / filename] of [pathlib]: an absolute right operand
    replaces the left one. *)
Definition path_join (dir name : string) : string :=
  match name with
  | String "/" _ => name
  | _ => dir +:+ "/" +:+ name
  end.

Definition py_bool_str (b : bool) : string := if b then "True" else "False".

(** ** The [--headless] branch of [main()] *)

(** Step 8: the notification, inside its own [try]/[except]. *)
Definition notify (env : Env) (bing_info : gmap string pyval) : M unit :=
  try_except
    (let title := dict_get_default bing_info "title" (VStr "Unknown Title") in
     let body := "Wallpaper updated successfully to: " +:+ py_str title in
     call (SendNotification "ChromaDesk Update" body)
          (send_notification env "ChromaDesk Update" body))
    (fun notify_err =>
       log WARNING ("Headless: Failed to send notification: " +:+ notify_err)).

(** Step 7 and 8, the body of [if set_ok:].  The values returned by
    [set_setting] and [cleanup_wallpaper_history] are dropped. *)
Definition record_update (env : Env) (config : ConfigParser.t)
    (today_str : string) (bing_info : gmap string pyval) : M bool :=
  log INFO "Headless: Wallpaper set successfully.";;
  call_cfg (SetSetting "State" "last_update_date" today_str)
           (set_setting env "State" "last_update_date" today_str);;
  keep_count ← lift (ConfigParser.getint config "Settings" "keep_history" 7);
  call_fs (CleanupWallpaperHistory keep_count)
          (cleanup_wallpaper_history env keep_count);;
  notify env bing_info;;
  mret true.

(** Step 6, the body of [if download_ok:]. *)
Definition apply_wallpaper (env : Env) (config : ConfigParser.t)
    (today_str : string) (bing_info : gmap string pyval) (save_path : string) : M bool :=
  log INFO "Headless: Download successful (or file existed).";;
  log INFO ("Headless: Setting wallpaper to " +:+ save_path);;
  set_ok ← call (SetGnomeWallpaper save_path) (set_gnome_wallpaper env save_path);
  if set_ok : bool then record_update env config today_str bing_info
  else log ERROR "Headless: Failed to set wallpaper.";; mret false.

(** Step 5, the [else] branch of the freshness test. *)
Definition download_and_apply (env : Env) (config : ConfigParser.t)
    (today_str last_update_date : string) (bing_info : gmap string pyval) : M bool :=
  log INFO ("Headless: Last update was " +:+ last_update_date
            +:+ ", proceeding with update for " +:+ today_str +:+ ".");;
  dir_ok ← call EnsureWallpaperDir (ensure_wallpaper_dir env);
  (if dir_ok : bool then mret tt
   else raise "Headless: Cannot create wallpaper directory.");;
  wallpaper_dir ← call GetWallpaperDir (get_wallpaper_dir env);
  date ← lift (dict_subscript bing_info "date");
  full_url ← lift (dict_subscript bing_info "full_url");
  filename ← call (GetBingFilename date full_url) (get_bing_filename env date full_url);
  let save_path := path_join wallpaper_dir filename in
  exists_ ← is_file save_path;
  download_ok ←
    (if exists_ : bool then
       log INFO ("Headless: Image " +:+ filename
                 +:+ " already exists. Using existing file.");;
       mret true
     else
       log INFO ("Headless: Downloading image to " +:+ save_path +:+ "...");;
       full_url ← lift (dict_subscript bing_info "full_url");
       call_fs (DownloadImage full_url save_path)
               (download_image env full_url save_path));
  if download_ok : bool then apply_wallpaper env config today_str bing_info save_path
  else log ERROR "Headless: Failed to download image.";; mret false.

(** Step 4, the body of [if bing_info and bing_info.get("full_url"):]. *)
Definition check_freshness (env : Env) (config : ConfigParser.t)
    (bing_info : gmap string pyval) : M bool :=
  log INFO ("Headless: Successfully fetched Bing info for date "
            +:+ py_str (dict_get bing_info "date"));;
  let today_str := today env in
  let last_update_date := ConfigParser.get config "State" "last_update_date" "" in
  if String.eqb last_update_date today_str then
    log INFO ("Headless: Wallpaper already updated today (" +:+ today_str
              +:+ "). Skipping.");;
    mret true
  else download_and_apply env config today_str last_update_date bing_info.

(** [bing_info and bing_info.get("full_url")] for a [bing_info] that is a
    dictionary: an empty dictionary is false, and so is a [full_url] that
    is missing, [None] or empty. *)
Definition has_full_url (bing_info : gmap string pyval) : bool :=
  negb (bool_decide (bing_info = ∅)) && truthy (dict_get bing_info "full_url").

(** Steps 1 to 3, the body of the [try]. *)
Definition update_check (env : Env) : M bool :=
  log INFO "Headless: Starting daily update check.";;
  config ← call_cfg LoadConfig (fun c => (load_config env c, c));
  enabled ← lift (ConfigParser.getboolean config "Settings" "enabled" false);
  if enabled : bool then
    log INFO "Headless: Daily updates are enabled in config.";;
    let region := ConfigParser.get config "Settings" "region" "en-US" in
    log INFO ("Headless: Fetching Bing info for region: " +:+ region);;
    bing_info ← call (FetchBingWallpaperInfo region) (fetch_bing_wallpaper_info env region);
    let fetch_failed :=
      log ERROR "Headless: Failed to fetch Bing wallpaper info.";; mret false in
    match bing_info with
    | Some info =>
        if has_full_url info then check_freshness env config info
        else fetch_failed
    | None => fetch_failed
    end
  else
    log INFO "Headless: Daily updates are disabled in config. Skipping.";;
    mret true.

(** The branch [if args.headless:], returning the exit code of [main()]. *)
Definition headless (env : Env) : M Z :=
  log INFO "Running in --headless update mode";;
  match import_core env with
  | Raises e =>
      log CRITICAL ("Failed to import core components for headless mode: " +:+ e);;
      mret 1
  | Returns _ =>
      success ←
        try_except (update_check env)
          (fun e =>
             log CRITICAL ("Headless: An error occurred during the update process: " +:+ e);;
             mret false);
      log INFO ("Headless update finished. Success: " +:+ py_bool_str success);;
      mret (if success : bool then 0 else 1)
  end.

(** The three observables of a run started in world [w]. *)
Definition exit_code (env : Env) (w : World) : outcome Z := (headless env w []).1.1.
Definition final_world (env : Env) (w : World) : World := (headless env w []).1.2.
Definition trace (env : Env) (w : World) : list event := (headless env w []).2.

(** ** Reading a trace *)

Definition is_log (e : event) : bool :=
  match e with Log _ _ => true | _ => false end.
Definition is_fetch (e : event) : bool :=
  match e with FetchBingWallpaperInfo _ => true | _ => false end.
Definition is_download (e : event) : bool :=
  match e with DownloadImage _ _ => true | _ => false end.
Definition is_apply (e : event) : bool :=
  match e with SetGnomeWallpaper _ => true | _ => false end.
Definition is_state_write (e : event) : bool :=
  match e with SetSetting _ _ _ => true | _ => false end.
Definition is_prune (e : event) : bool :=
  match e with CleanupWallpaperHistory _ => true | _ => false end.
Definition is_notify (e : event) : bool :=
  match e with SendNotification _ _ => true | _ => false end.

Definition is_filename (e : event) : bool :=
  match e with GetBingFilename _ _ => true | _ => false end.

(** The collaborator calls of a trace, log records left out. *)
Definition calls (t : list event) : list event :=
  List.filter (fun e => negb (is_log e)) t.

Definition count_calls (p : event -> bool) (t : list event) : nat :=
  length (List.filter p t).

(** What the branch reads from a loaded configuration. *)
Definition region_of (config : ConfigParser.t) : string :=
  ConfigParser.get config "Settings" "region" "en-US".
Definition last_update_date_of (config : ConfigParser.t) : string :=
  ConfigParser.get config "State" "last_update_date" "".

(** The fetch gave nothing the branch can use: it raised, returned
    [None], or returned a dictionary that fails the [full_url] test. *)
Definition fetch_failed (o : outcome (option (gmap string pyval))) : Prop :=
  match o with
  | Raises _ => True
  | Returns None => True
  | Returns (Some info) => has_full_url info = false
  end.

(** The entries that open every run with updates enabled, up to and
    including the fetch. *)
Definition enabled_prefix (config : ConfigParser.t) : list event :=
  [ Log INFO "Running in --headless update mode";
    Log INFO "Headless: Starting daily update check.";
    LoadConfig;
    Log INFO "Headless: Daily updates are enabled in config.";
    Log INFO ("Headless: Fetching Bing info for region: " +:+ region_of config);
    FetchBingWallpaperInfo (region_of config) ].

(** The first apply call of a trace and everything after it dropped. *)
Fixpoint until_apply (t : list event) : list event :=
  match t with
  | [] => []
  | e :: r => if is_apply e then [] else e :: until_apply r
  end.

Definition is_error_log (e : event) : bool :=
  match e with
  | Log ERROR _ | Log CRITICAL _ => true
  | _ => false
  end.

(** The same collaborators with another notification service. *)
Definition with_send_notification (env : Env)
    (n : string -> string -> outcome unit) : Env :=
  {| today := today env;
     import_core := import_core env;
     load_config := load_config env;
     fetch_bing_wallpaper_info := fetch_bing_wallpaper_info env;
     ensure_wallpaper_dir := ensure_wallpaper_dir env;
     get_wallpaper_dir := get_wallpaper_dir env;
     get_bing_filename := get_bing_filename env;
     cleanup_wallpaper_history := cleanup_wallpaper_history env;
     download_image := download_image env;
     set_gnome_wallpaper := set_gnome_wallpaper env;
     send_notification := n;
     set_setting := set_setting env |}.

(** ** The claims the code does not meet, as stated *)

(** A failed write of [last_update_date] after a successful apply leaves
    the run successful. *)
Definition state_write_failure_tolerated (env : Env) (w : World) : Prop :=
  forall p,
    SetGnomeWallpaper p ∈ trace env w ->
    set_gnome_wallpaper env p = Returns true ->
    (set_setting env "State" "last_update_date" (today env) (config_file w)).1
      <> Returns true ->
    exit_code env w = Returns 0.

(** Pruning is attempted after every successful apply, and the run then
    returns success whatever pruning does. *)
Definition prune_always_attempted (env : Env) (w : World) : Prop :=
  forall p,
    SetGnomeWallpaper p ∈ trace env w ->
    set_gnome_wallpaper env p = Returns true ->
    (count_calls is_prune (trace env w) = 1)%nat /\ exit_code env w = Returns 0.

(** ** Concrete runs *)

Module Scenario.

Definition info : gmap string pyval :=
  <["date" := VStr "2024-01-01"]>
    (<["title" := VStr "T"]> (<["full_url" := VStr "https://x/img.jpg"]> ∅)).

(** A fetched dictionary with no [full_url]. *)
Definition info_no_url : gmap string pyval :=
  <["date" := VStr "2024-01-01"]> (<["title" := VStr "T"]> ∅).

Definition config_enabled : ConfigParser.t :=
  <[("Settings", "enabled") := "true"]>
    (<[("Settings", "region") := "en-US"]>
       (<[("Settings", "keep_history") := "7"]> ∅)).

Definition config_disabled : ConfigParser.t :=
  <[("Settings", "enabled") := "false"]> ∅.

(** Updates enabled, already recorded for the day of [env_ok]. *)
Definition config_done : ConfigParser.t :=
  <[("State", "last_update_date") := "2024-01-02"]> config_enabled.

(** [keep_history] is not an integer. *)
Definition config_bad_keep : ConfigParser.t :=
  <[("Settings", "keep_history") := "abc"]> config_enabled.

Definition saved : string := "/w/2024-01-01_bing.jpg".

(** Every collaborator succeeds; the image is dated the day before the
    run. *)
Definition env_ok : Env :=
  {| today := "2024-01-02";
     import_core := Returns tt;
     load_config := fun c => Returns c;
     fetch_bing_wallpaper_info := fun _ => Returns (Some info);
     ensure_wallpaper_dir := Returns true;
     get_wallpaper_dir := Returns "/w";
     get_bing_filename := fun d _ => Returns (py_str d +:+ "_bing.jpg");
     cleanup_wallpaper_history := fun _ fs => (Returns tt, fs);
     download_image := fun _ p fs => (Returns true, {[p]} ∪ fs);
     set_gnome_wallpaper := fun _ => Returns true;
     send_notification := fun _ _ => Returns tt;
     set_setting := fun s k v c => (Returns true, <[(s, k) := v]> c) |}.

(** The fetch returns a dictionary without [full_url]. *)
Definition env_no_url : Env :=
  {| today := "2024-01-02";
     import_core := Returns tt;
     load_config := fun c => Returns c;
     fetch_bing_wallpaper_info := fun _ => Returns (Some info_no_url);
     ensure_wallpaper_dir := Returns true;
     get_wallpaper_dir := Returns "/w";
     get_bing_filename := fun d _ => Returns (py_str d +:+ "_bing.jpg");
     cleanup_wallpaper_history := fun _ fs => (Returns tt, fs);
     download_image := fun _ p fs => (Returns true, {[p]} ∪ fs);
     set_gnome_wallpaper := fun _ => Returns true;
     send_notification := fun _ _ => Returns tt;
     set_setting := fun s k v c => (Returns true, <[(s, k) := v]> c) |}.

(** The desktop rejects the image. *)
Definition env_apply_fails : Env :=
  {| today := "2024-01-02";
     import_core := Returns tt;
     load_config := fun c => Returns c;
     fetch_bing_wallpaper_info := fun _ => Returns (Some info);
     ensure_wallpaper_dir := Returns true;
     get_wallpaper_dir := Returns "/w";
     get_bing_filename := fun d _ => Returns (py_str d +:+ "_bing.jpg");
     cleanup_wallpaper_history := fun _ fs => (Returns tt, fs);
     download_image := fun _ p fs => (Returns true, {[p]} ∪ fs);
     set_gnome_wallpaper := fun _ => Returns false;
     send_notification := fun _ _ => Returns tt;
     set_setting := fun s k v c => (Returns true, <[(s, k) := v]> c) |}.

(** [set_setting] reports failure through its return value and leaves
    the file as it was. *)
Definition env_write_false : Env :=
  {| today := "2024-01-02";
     import_core := Returns tt;
     load_config := fun c => Returns c;
     fetch_bing_wallpaper_info := fun _ => Returns (Some info);
     ensure_wallpaper_dir := Returns true;
     get_wallpaper_dir := Returns "/w";
     get_bing_filename := fun d _ => Returns (py_str d +:+ "_bing.jpg");
     cleanup_wallpaper_history := fun _ fs => (Returns tt, fs);
     download_image := fun _ p fs => (Returns true, {[p]} ∪ fs);
     set_gnome_wallpaper := fun _ => Returns true;
     send_notification := fun _ _ => Returns tt;
     set_setting := fun _ _ _ c => (Returns false, c) |}.

(** [set_setting] raises. *)
Definition env_write_raises : Env :=
  {| today := "2024-01-02";
     import_core := Returns tt;
     load_config := fun c => Returns c;
     fetch_bing_wallpaper_info := fun _ => Returns (Some info);
     ensure_wallpaper_dir := Returns true;
     get_wallpaper_dir := Returns "/w";
     get_bing_filename := fun d _ => Returns (py_str d +:+ "_bing.jpg");
     cleanup_wallpaper_history := fun _ fs => (Returns tt, fs);
     download_image := fun _ p fs => (Returns true, {[p]} ∪ fs);
     set_gnome_wallpaper := fun _ => Returns true;
     send_notification := fun _ _ => Returns tt;
     set_setting := fun _ _ _ c => (Raises "[Errno 13] Permission denied", c) |}.

(** No notification service. *)
Definition no_notifier (title body : string) : outcome unit :=
  Raises "[Errno 2] No such file or directory: 'notify-send'".

Definition world_enabled : World := {| config_file := config_enabled; files := ∅ |}.
Definition world_disabled : World := {| config_file := config_disabled; files := ∅ |}.
Definition world_done : World := {| config_file := config_done; files := {[saved]} |}.
Definition world_bad_keep : World := {| config_file := config_bad_keep; files := ∅ |}.
(** The image of the day is already on disk. *)
Definition world_cached : World := {| config_file := config_enabled; files := {[saved]} |}.

End Scenario.

(** ** The rest of [main()]: arguments, dispatch and the other branches *)

(** The namespace [argparse] returns: three [store_true] flags and the
    three values of [--internal-set-config], [None] when it is not given.
    How [argparse] reads the command line is not modelled; the namespace
    is the input. *)
Record Args : Type := mkArgs {
  args_gui : bool;
  args_headless : bool;
  args_version : bool;
  args_internal_set_config : option (string * string * string);
}.


(** What [main()] does besides the calls of the headless branch. *)
Inductive main_event : Type :=
| Core (e : event)
| Print (line : string)
| EnsureConfigDirExists
| CreateDefaultConfigIfMissing
| GetVersion (package : string)
| NewQApplication
| SetApplicationName (name : string)
| SetOrganizationName (name : string)
| NewMainWindow
| ShowWindow
| AppExec.

#[global] Instance main_event_eq_dec : EqDecision main_event.
Proof. solve_decision. Defined.

(** The collaborators of [main()]: those of the headless branch, the two
    other functions of [chromadesk.core.config], [importlib.metadata] and
    the Qt application. *)
Record MainEnv : Type := mkMainEnv {
  core : Env;
  ensure_config_dir_exists : outcome bool;
  create_default_config_if_missing : ConfigParser.t -> outcome bool * ConfigParser.t;
  (* get_version(package) *)
  get_version : string -> outcome string;
  (* the imports of PySide6 and chromadesk.ui at the head of the GUI branch *)
  import_gui : outcome unit;
  (* QApplication(sys.argv) *)
  new_qapplication : outcome unit;
  set_application_name : string -> outcome unit;
  set_organization_name : string -> outcome unit;
  (* MainWindow() *)
  new_main_window : outcome unit;
  (* window.show() *)
  show_window : outcome unit;
  (* app.exec(): the session may change the configuration and the disk *)
  app_exec : World -> outcome Z * World;
}.

(** The monad of [M], over the events of [main()]. *)
Definition MainM (A : Type) : Type :=
  World -> list main_event -> outcome A * World * list main_event.

#[global] Instance MainM_ret : MRet MainM :=
  fun A a w t => (Returns a, w, t).

#[global] Instance MainM_bind : MBind MainM :=
  fun A B k m w t =>
    match m w t with
    | (Returns a, w1, t1) => k a w1 t1
    | (Raises e, w1, t1) => (Raises e, w1, t1)
    end.

Definition main_raise {A : Type} (msg : string) : MainM A :=
  fun w t => (Raises msg, w, t).

Definition main_try {A : Type} (body : MainM A) (handler : string -> MainM A) : MainM A :=
  fun w t =>
    match body w t with
    | (Returns a, w1, t1) => (Returns a, w1, t1)
    | (Raises e, w1, t1) => handler e w1 t1
    end.

Definition main_log (lvl : level) (msg : string) : MainM unit :=
  fun w t => (Returns tt, w, t ++ [Core (Log lvl msg)]).

Definition main_print (line : string) : MainM unit :=
  fun w t => (Returns tt, w, t ++ [Print line]).

Definition main_call {A : Type} (e : main_event) (o : outcome A) : MainM A :=
  fun w t => (o, w, t ++ [e]).

Definition main_call_cfg {A : Type} (e : main_event)
    (f : ConfigParser.t -> outcome A * ConfigParser.t) : MainM A :=
  fun w t => let '(o, c) := f (config_file w) in
             (o, {| config_file := c; files := files w |}, t ++ [e]).

Definition main_call_world {A : Type} (e : main_event)
    (f : World -> outcome A * World) : MainM A :=
  fun w t => let '(o, w1) := f w in (o, w1, t ++ [e]).

(** A computation of the headless branch run inside [main()]. *)
Definition run_core {A : Type} (m : M A) : MainM A :=
  fun w t => let '(o, w1, t1) := m w [] in (o, w1, t ++ map Core t1).

(** The branch [if args.internal_set_config:]. *)
Definition set_config_command (menv : MainEnv) (section key value : string) : MainM Z :=
  main_try
    (main_log INFO ("Internal command: Setting config [" +:+ section +:+ "]." +:+ key
                    +:+ " = '" +:+ value +:+ "'");;
     dir_ok ← main_call EnsureConfigDirExists (ensure_config_dir_exists menv);
     (if dir_ok : bool then mret tt
      else main_raise "Failed to ensure config directory exists.");;
     created ← main_call_cfg CreateDefaultConfigIfMissing
                 (create_default_config_if_missing menv);
     (if created : bool then mret tt
      else main_raise "Failed to create default config file.");;
     success ← main_call_cfg (Core (SetSetting section key value))
                 (set_setting (core menv) section key value);
     if success : bool then
       main_log INFO "Internal command: Config updated successfully.";;
       mret 0
     else
       main_log ERROR "Internal command: Failed to update config using set_setting.";;
       mret 1)
    (fun e =>
       main_log CRITICAL ("Internal command: Error setting config: " +:+ e);;
       mret 1).

(** The branch [if args.version:]. *)
Definition version_command (menv : MainEnv) : MainM Z :=
  main_try
    (ver ← main_call (GetVersion "chromadesk") (get_version menv "chromadesk");
     main_print ("ChromaDesk version " +:+ ver))
    (fun _ => main_print "ChromaDesk (version unknown)");;
  mret 0.

(** The branch [elif args.gui:]. *)
Definition gui_command (menv : MainEnv) : MainM Z :=
  main_log INFO "Starting GUI application";;
  match import_gui menv with
  | Raises e =>
      main_log CRITICAL ("Failed to import GUI components: " +:+ e);;
      mret 1
  | Returns _ =>
      main_try
        (main_call NewQApplication (new_qapplication menv);;
         main_call (SetApplicationName "ChromaDesk")
                   (set_application_name menv "ChromaDesk");;
         main_call (SetOrganizationName "chromadesk")
                   (set_organization_name menv "chromadesk");;
         main_call NewMainWindow (new_main_window menv);;
         main_log INFO "MainWindow initialized.";;
         main_call ShowWindow (show_window menv);;
         result ← main_call_world AppExec (app_exec menv);
         mret result)
        (fun e =>
           main_log CRITICAL ("An error occurred during GUI execution: " +:+ e);;
           mret 1)
  end.

(** [main()] after [args = parse_args()]: the value it returns, [None]
    when no branch is taken. *)
Definition main (menv : MainEnv) (args : Args) : MainM (option Z) :=
  match args_internal_set_config args with
  | Some (section, key, value) =>
      code ← set_config_command menv section key value; mret (Some code)
  | None =>
      if args_version args then
        code ← version_command menv; mret (Some code)
      else if args_headless args then
        code ← run_core (headless (core menv)); mret (Some code)
      else if args_gui args then
        code ← gui_command menv; mret (Some code)
      else mret None
  end.


Definition is_core (e : main_event) : bool :=
  match e with Core _ => true | _ => false end.

(** The events of [main()] that are not log records. *)
Definition main_calls (t : list main_event) : list main_event :=
  List.filter (fun e => match e with Core (Log _ _) => false | _ => true end) t.

(** ** More ways of reading a trace *)

Definition is_ensure_dir (e : event) : bool :=
  match e with EnsureWallpaperDir => true | _ => false end.

(** The body of the notification for a fetched dictionary. *)
Definition notification_body (info : gmap string pyval) : string :=
  "Wallpaper updated successfully to: "
  +:+ py_str (default (VStr "Unknown Title") (info !! "title")).

(** ** More concrete runs *)

Module Cases.

(** A fetched dictionary with a [full_url] and nothing else. *)
Definition info_bare : gmap string pyval :=
  <["full_url" := VStr "https://x/img.jpg"]> ∅.

(** A fetched dictionary with no [title]. *)
Definition info_untitled : gmap string pyval :=
  <["date" := VStr "2024-01-01"]> (<["full_url" := VStr "https://x/img.jpg"]> ∅).

(** Updates enabled and every other option left out. *)
Definition config_minimal : ConfigParser.t :=
  <[("Settings", "enabled") := "true"]> ∅.

(** [enabled] misspelt. *)
Definition config_maybe : ConfigParser.t :=
  <[("Settings", "enabled") := "maybe"]> ∅.

Definition world_minimal : World := {| config_file := config_minimal; files := ∅ |}.
Definition world_maybe : World := {| config_file := config_maybe; files := ∅ |}.
Definition world_empty : World := {| config_file := ∅; files := ∅ |}.

(** The collaborators of [Scenario.env_ok] with the outcome of the
    imports, the fetched dictionary and the outcomes of
    [ensure_wallpaper_dir] and [download_image] chosen; a download leaves
    its file only when it returns true. *)
Definition make_env (import : outcome unit) (info : gmap string pyval)
    (dir_ok download_ok : outcome bool) : Env :=
  {| today := "2024-01-02";
     import_core := import;
     load_config := fun c => Returns c;
     fetch_bing_wallpaper_info := fun _ => Returns (Some info);
     ensure_wallpaper_dir := dir_ok;
     get_wallpaper_dir := Returns "/w";
     get_bing_filename := fun d _ => Returns (py_str d +:+ "_bing.jpg");
     cleanup_wallpaper_history := fun _ fs => (Returns tt, fs);
     download_image := fun _ p fs =>
       (download_ok,
        match download_ok with Returns true => {[p]} ∪ fs | _ => fs end);
     set_gnome_wallpaper := fun _ => Returns true;
     send_notification := fun _ _ => Returns tt;
     set_setting := fun s k v c => (Returns true, <[(s, k) := v]> c) |}.

Definition env_no_dir : Env :=
  make_env (Returns tt) Scenario.info (Returns false) (Returns true).
Definition env_no_download : Env :=
  make_env (Returns tt) Scenario.info (Returns true) (Returns false).
Definition env_bare_info : Env :=
  make_env (Returns tt) info_bare (Returns true) (Returns true).
Definition env_untitled : Env :=
  make_env (Returns tt) info_untitled (Returns true) (Returns true).

(** Everything around the headless branch succeeds too; the GUI session
    ends with status 0. *)
Definition menv_ok : MainEnv :=
  {| core := Scenario.env_ok;
     ensure_config_dir_exists := Returns true;
     create_default_config_if_missing := fun c => (Returns true, c);
     get_version := fun _ => Returns "0.2.0";
     import_gui := Returns tt;
     new_qapplication := Returns tt;
     set_application_name := fun _ => Returns tt;
     set_organization_name := fun _ => Returns tt;
     new_main_window := Returns tt;
     show_window := Returns tt;
     app_exec := fun w => (Returns 0, w) |}.

Definition args_version_headless : Args := mkArgs false true true None.
Definition args_set_region : Args :=
  mkArgs false true false (Some ("Settings", "region", "fr-FR")).

End Cases.

(** ** Proof automation: walking the branch outcome by outcome *)

Ltac mcbv H :=
  cbv [mbind mret M_bind M_ret log emit call call_fs call_cfg lift raise try_except
       is_file config_file files] in H.

(** Reduce the fields of an environment given as a record. *)
Ltac proj_red H :=
  cbn [today import_core load_config fetch_bing_wallpaper_info ensure_wallpaper_dir
       get_wallpaper_dir get_bing_filename cleanup_wallpaper_history download_image
       set_gnome_wallpaper send_notification set_setting with_send_notification] in H.

(** Close a case whose recorded outcomes contradict each other and
    propagate the ones that agree. *)
Ltac prune :=
  repeat match goal with
  | H : Raises _ = Returns _ |- _ => discriminate H
  | H : Returns _ = Raises _ |- _ => discriminate H
  | H : true = false |- _ => discriminate H
  | H : false = true |- _ => discriminate H
  | H : Some _ = None |- _ => discriminate H
  | H : None = Some _ |- _ => discriminate H
  | H : (Raises _, _) = (Returns _, _) |- _ => discriminate H
  | H : (Returns _, _) = (Raises _, _) |- _ => discriminate H
  | H : Returns _ = Returns _ |- _ => injection H as H; try subst
  | H : Some _ = Some _ |- _ => injection H as H; try subst
  | H : (_, _) = (_, _) |- _ => injection H as ? ?; try subst
  | H : ?x = ?x |- _ => clear H
  | H : True |- _ => clear H
  end.

(** One step: split on the next outcome the run depends on, or open the
    next stage of the branch. *)
Ltac run_step H :=
  match type of H with
  | context [match ?o with Returns _ => _ | Raises _ => _ end] => destruct o eqn:?
  | context [match ?o with Some _ => _ | None => _ end] => destruct o eqn:?
  | context [if ?b then _ else _] => destruct b eqn:?
  | context [check_freshness] => unfold check_freshness in H; mcbv H
  | context [download_and_apply] => unfold download_and_apply in H; mcbv H
  | context [apply_wallpaper] => unfold apply_wallpaper in H; mcbv H
  | context [record_update] => unfold record_update in H; mcbv H
  | context [notify] => unfold notify in H; mcbv H
  | context [download_image ?e ?u ?p ?f] => destruct (download_image e u p f) eqn:?
  | context [set_setting ?e ?s ?k ?v ?c] => destruct (set_setting e s k v c) eqn:?
  | context [cleanup_wallpaper_history ?e ?k ?f] =>
      destruct (cleanup_wallpaper_history e k f) eqn:?
  end; cbv beta iota in H; prune.

(** Every way the run recorded in [H] can have gone; each case keeps the
    outcomes that select it among the hypotheses. *)
Ltac walk H :=
  unfold headless, update_check in H; mcbv H;
  repeat run_step H; cbn [app fst snd] in *.

Ltac run_cases env c f :=
  let H := fresh "Hrun" in
  unfold exit_code, final_world, trace, region_of, last_update_date_of in *;
  cbn [config_file files] in *;
  destruct (headless env (mkWorld c f) []) as [[? ?] ?] eqn:H;
  walk H.

(** Membership in a trace that has been computed. *)
Ltac elem_solve :=
  solve [ repeat first [ apply list_elem_of_here | apply list_elem_of_further ] ].

Ltac count_in H :=
  cbv [count_calls calls until_apply List.filter length negb orb andb is_log is_fetch
       is_download is_apply is_state_write is_prune is_notify is_filename
       is_error_log] in H.

Ltac count_goal :=
  cbv [count_calls calls until_apply List.filter length negb orb andb is_log is_fetch
       is_download is_apply is_state_write is_prune is_notify is_filename
       is_error_log].

(** ** Shared lemmas *)

Lemma count_calls_app p (t1 t2 : list event) :
  count_calls p (t1 ++ t2) = (count_calls p t1 + count_calls p t2)%nat.
Proof. unfold count_calls. by rewrite List.filter_app, length_app. Qed.

(** A dictionary lacks a usable [full_url] when the key is missing, or
    maps to [None] or to the empty string. *)
Lemma has_full_url_falsy info :
  truthy (dict_get info "full_url") = false -> has_full_url info = false.
Proof. unfold has_full_url. intros ->. apply andb_false_r. Qed.

Lemma has_full_url_missing info :
  info !! "full_url" = None -> has_full_url info = false.
Proof. intros H. apply has_full_url_falsy. unfold dict_get. by rewrite H. Qed.

Lemma dict_subscript_lookup (d : gmap string pyval) k v :
  d !! k = Some v -> dict_subscript d k = Returns v.
Proof. unfold dict_subscript. by intros ->. Qed.


(** A run with updates enabled whose fetch gives nothing usable. *)
Lemma fetch_failure_run env w config :
  import_core env = Returns tt ->
  load_config env (config_file w) = Returns config ->
  ConfigParser.getboolean config "Settings" "enabled" false = Returns true ->
  fetch_failed (fetch_bing_wallpaper_info env (region_of config)) ->
  exit_code env w = Returns 1 /\ final_world env w = w /\
  calls (trace env w) = [LoadConfig; FetchBingWallpaperInfo (region_of config)].
Proof.
  intros Hi Hl He Hf. destruct w as [c f]. unfold fetch_failed in Hf.
  run_cases env c f; auto.
Qed.

(** A run with updates enabled, a usable fetch and today's date already
    recorded. *)
Lemma fresh_run env w config info :
  import_core env = Returns tt ->
  load_config env (config_file w) = Returns config ->
  ConfigParser.getboolean config "Settings" "enabled" false = Returns true ->
  fetch_bing_wallpaper_info env (region_of config) = Returns (Some info) ->
  has_full_url info = true ->
  last_update_date_of config = today env ->
  headless env w [] =
    (Returns 0, w,
     enabled_prefix config ++
     [ Log INFO ("Headless: Successfully fetched Bing info for date "
                 +:+ py_str (dict_get info "date"));
       Log INFO ("Headless: Wallpaper already updated today (" +:+ today env
                 +:+ "). Skipping.");
       Log INFO "Headless update finished. Success: True" ]).
Proof.
  intros Hi Hl He Hf Hu Hd. destruct w as [c f].
  apply String.eqb_eq in Hd.
  unfold enabled_prefix.
  run_cases env c f; reflexivity.
Qed.

(** A run with updates enabled succeeds only on a usable fetch. *)
Lemma success_needs_fetch env w config :
  import_core env = Returns tt ->
  load_config env (config_file w) = Returns config ->
  ConfigParser.getboolean config "Settings" "enabled" false = Returns true ->
  exit_code env w = Returns 0 ->
  exists info,
    fetch_bing_wallpaper_info env (region_of config) = Returns (Some info) /\
    has_full_url info = true.
Proof.
  intros Hi Hl He Hx. destruct w as [c f].
  run_cases env c f; try discriminate Hx; eauto.
Qed.

(** The one call of a kind, found from its membership in a trace that has
    at most one call of that kind. *)
Lemma find_unique (p : event -> bool) (t : list event) e :
  e ∈ t -> p e = true -> (count_calls p t <= 1)%nat -> List.find p t = Some e.
Proof.
  unfold count_calls. induction t as [|x t IH]; intros He Hp Hc.
  - by apply elem_of_nil in He.
  - cbn [List.find List.filter] in *. apply elem_of_cons in He as [->|He].
    + by rewrite Hp.
    + destruct (p x) eqn:Hx.
      * exfalso. cbn [length] in Hc.
        assert (length (List.filter p t) = 0)%nat as Hz by lia.
        apply List.length_zero_iff_nil in Hz.
        apply list_elem_of_In in He.
        assert (In e (List.filter p t)) as Hin by (apply List.filter_In; auto).
        rewrite Hz in Hin. destruct Hin.
      * auto.
Qed.

(** A run calls each collaborator at most once. *)
Lemma calls_once env w :
  (count_calls is_fetch (trace env w) <= 1)%nat /\
  (count_calls is_download (trace env w) <= 1)%nat /\
  (count_calls is_apply (trace env w) <= 1)%nat /\
  (count_calls is_state_write (trace env w) <= 1)%nat /\
  (count_calls is_prune (trace env w) <= 1)%nat /\
  (count_calls is_notify (trace env w) <= 1)%nat /\
  (count_calls is_filename (trace env w) <= 1)%nat.
Proof. destruct w as [c f]. run_cases env c f; count_goal; lia. Qed.

Ltac find_in H :=
  cbv [List.find is_fetch is_apply is_state_write is_prune is_notify is_filename] in H.

(** Turn a hypothesis that a call is in the trace of the run into the
    result of looking that call up, which computes once the trace does. *)
Ltac locate H p :=
  match type of H with
  | ?e ∈ ?t =>
      let Hn := fresh in
      assert (Hn : List.find p t = Some e)
        by (apply find_unique;
            [ exact H | reflexivity
            | apply calls_once ]);
      clear H; rename Hn into H
  end.

Lemma count_pos (p : event -> bool) (t : list event) e :
  e ∈ t -> p e = true -> (0 < count_calls p t)%nat.
Proof.
  intros He Hp. unfold count_calls.
  assert (In e (List.filter p t)) as Hin
    by (apply List.filter_In; split; [by apply list_elem_of_In | done]).
  destruct (List.filter p t); [destruct Hin | cbn; lia].
Qed.


(** ** The claims *)

(** C1. When the apply call made by a run does not return true (it
    returns false or raises), the run returns exit code 1, the
    configuration file is left as it was, and neither [set_setting] nor
    [cleanup_wallpaper_history] is called.  In any run, nothing before the
    apply call is a state write or a prune, and a state write or a prune
    in the trace means the apply call returned true. *)
Theorem no_false_completion env w :
  (forall p,
     SetGnomeWallpaper p ∈ trace env w ->
     set_gnome_wallpaper env p <> Returns true ->
     exit_code env w = Returns 1 /\
     config_file (final_world env w) = config_file w /\
     count_calls is_state_write (trace env w) = 0%nat /\
     count_calls is_prune (trace env w) = 0%nat) /\
  count_calls is_state_write (until_apply (trace env w)) = 0%nat /\
  count_calls is_prune (until_apply (trace env w)) = 0%nat /\
  (forall e,
     e ∈ trace env w -> (is_state_write e || is_prune e)%bool = true ->
     exists p, SetGnomeWallpaper p ∈ trace env w /\
               set_gnome_wallpaper env p = Returns true).
Proof.
  enough
    ((forall p,
        List.find is_apply (trace env w) = Some (SetGnomeWallpaper p) ->
        set_gnome_wallpaper env p <> Returns true ->
        exit_code env w = Returns 1 /\
        config_file (final_world env w) = config_file w /\
        count_calls is_state_write (trace env w) = 0%nat /\
        count_calls is_prune (trace env w) = 0%nat) /\
     count_calls is_state_write (until_apply (trace env w)) = 0%nat /\
     count_calls is_prune (until_apply (trace env w)) = 0%nat /\
     ((0 < count_calls (fun e => is_state_write e || is_prune e) (trace env w))%nat ->
      exists p, SetGnomeWallpaper p ∈ trace env w /\
                set_gnome_wallpaper env p = Returns true))
    as (H1 & H2 & H3 & H4).
  { split; [|split; [assumption|split; [assumption|]]].
    - intros p Hp. locate Hp is_apply. by apply H1.
    - intros e He Hk. apply H4. by eapply count_pos. }
  destruct w as [c f].
  run_cases env c f.
  all: split;
    [ intros apath Hap Hne; find_in Hap; prune;
      first [congruence | repeat split; reflexivity] |].
  all: split; [reflexivity|]; split; [reflexivity|].
  all: intros Hk; count_in Hk; try lia.
  all: eexists; split; [elem_solve | eassumption].
Qed.

Lemma no_false_completion_witness :
  exit_code Scenario.env_apply_fails Scenario.world_enabled = Returns 1 /\
  config_file (final_world Scenario.env_apply_fails Scenario.world_enabled)
    = Scenario.config_enabled /\
  count_calls is_state_write (trace Scenario.env_apply_fails Scenario.world_enabled) = 0%nat /\
  count_calls is_prune (trace Scenario.env_apply_fails Scenario.world_enabled) = 0%nat.
Proof.
  apply (proj1 (no_false_completion Scenario.env_apply_fails Scenario.world_enabled)
           Scenario.saved).
  - apply (bool_decide_unpack _). vm_compute. exact I.
  - discriminate.
Defined.

(** C2. Two runs in succession on the same day, both with updates
    enabled and the same fetched metadata: once the first run has returned
    success and today's date is what the second run reads as
    [last_update_date], the second run returns success without a download,
    an apply or a state write and leaves the world as it found it; so the
    two runs together make at most one download call and one apply call. *)
Theorem second_run_same_day_is_noop env1 env2 w config1 config2 :
  import_core env1 = Returns tt ->
  import_core env2 = Returns tt ->
  today env2 = today env1 ->
  load_config env1 (config_file w) = Returns config1 ->
  ConfigParser.getboolean config1 "Settings" "enabled" false = Returns true ->
  load_config env2 (config_file (final_world env1 w)) = Returns config2 ->
  ConfigParser.getboolean config2 "Settings" "enabled" false = Returns true ->
  fetch_bing_wallpaper_info env2 (region_of config2)
    = fetch_bing_wallpaper_info env1 (region_of config1) ->
  exit_code env1 w = Returns 0 ->
  last_update_date_of config2 = today env1 ->
  let w1 := final_world env1 w in
  exit_code env2 w1 = Returns 0 /\
  final_world env2 w1 = w1 /\
  count_calls is_download (trace env2 w1) = 0%nat /\
  count_calls is_apply (trace env2 w1) = 0%nat /\
  count_calls is_state_write (trace env2 w1) = 0%nat /\
  (count_calls is_download (trace env1 w ++ trace env2 w1) <= 1)%nat /\
  (count_calls is_apply (trace env1 w ++ trace env2 w1) <= 1)%nat.
Proof.
  intros Hi1 Hi2 Ht Hl1 He1 Hl2 He2 Hf Hx Hd w1.
  destruct (success_needs_fetch env1 w config1 Hi1 Hl1 He1 Hx) as (info & Hf1 & Hu).
  rewrite Hf1 in Hf. rewrite <- Ht in Hd.
  pose proof (fresh_run env2 w1 config2 info Hi2 Hl2 He2 Hf Hu Hd) as Hrun.
  pose proof (calls_once env1 w) as (_ & Hdl & Hap & _).
  unfold exit_code, final_world, trace in *. fold w1. rewrite Hrun.
  cbn [fst snd]. rewrite !count_calls_app.
  repeat split; try reflexivity.
  - change (count_calls is_download (enabled_prefix config2)) with 0%nat.
    cbn. lia.
  - change (count_calls is_apply (enabled_prefix config2)) with 0%nat.
    cbn. lia.
Qed.

Lemma second_run_same_day_is_noop_witness :
  let w1 := final_world Scenario.env_ok Scenario.world_enabled in
  exit_code Scenario.env_ok w1 = Returns 0 /\
  final_world Scenario.env_ok w1 = w1 /\
  count_calls is_download (trace Scenario.env_ok w1) = 0%nat /\
  count_calls is_apply (trace Scenario.env_ok w1) = 0%nat /\
  count_calls is_state_write (trace Scenario.env_ok w1) = 0%nat /\
  (count_calls is_download
     (trace Scenario.env_ok Scenario.world_enabled ++ trace Scenario.env_ok w1) <= 1)%nat /\
  (count_calls is_apply
     (trace Scenario.env_ok Scenario.world_enabled ++ trace Scenario.env_ok w1) <= 1)%nat.
Proof.
  apply (second_run_same_day_is_noop Scenario.env_ok Scenario.env_ok
           Scenario.world_enabled Scenario.config_enabled Scenario.config_done);
    reflexivity.
Defined.

(** C3. With [enabled] false in the configuration the run returns exit
    code 0 and its only collaborator call is [load_config]: no fetch, no
    download, no write to disk or to the configuration, no apply. *)
Theorem disabled_short_circuit env w config :
  import_core env = Returns tt ->
  load_config env (config_file w) = Returns config ->
  ConfigParser.getboolean config "Settings" "enabled" false = Returns false ->
  exit_code env w = Returns 0 /\ final_world env w = w /\
  calls (trace env w) = [LoadConfig].
Proof.
  intros Hi Hl He. destruct w as [c f].
  run_cases env c f; auto.
Qed.

Lemma disabled_short_circuit_witness :
  exit_code Scenario.env_ok Scenario.world_disabled = Returns 0 /\
  final_world Scenario.env_ok Scenario.world_disabled = Scenario.world_disabled /\
  calls (trace Scenario.env_ok Scenario.world_disabled) = [LoadConfig].
Proof.
  apply (disabled_short_circuit Scenario.env_ok Scenario.world_disabled
           Scenario.config_disabled); reflexivity.
Defined.

(** C4. When the fetch raises, returns [None], or returns a dictionary
    that fails the [full_url] test, the run returns exit code 1, the world
    (configuration file and files on disk) is left as it was and nothing is
    called after the fetch.  Every returned failure, [None] or a dictionary
    without [full_url], leaves the very same trace. *)
Theorem fetch_failure_aborts env w config :
  import_core env = Returns tt ->
  load_config env (config_file w) = Returns config ->
  ConfigParser.getboolean config "Settings" "enabled" false = Returns true ->
  fetch_failed (fetch_bing_wallpaper_info env (region_of config)) ->
  exit_code env w = Returns 1 /\ final_world env w = w /\
  calls (trace env w) = [LoadConfig; FetchBingWallpaperInfo (region_of config)] /\
  (forall r, fetch_bing_wallpaper_info env (region_of config) = Returns r ->
     trace env w =
       enabled_prefix config ++
       [ Log ERROR "Headless: Failed to fetch Bing wallpaper info.";
         Log INFO "Headless update finished. Success: False" ]).
Proof.
  intros Hi Hl He Hf.
  destruct (fetch_failure_run env w config Hi Hl He Hf) as (Hx & Hw & Hc).
  repeat split; try assumption.
  intros r Hr. destruct w as [c f]. unfold fetch_failed in Hf.
  unfold enabled_prefix.
  run_cases env c f; reflexivity.
Qed.

Lemma fetch_failure_aborts_witness :
  exit_code Scenario.env_no_url Scenario.world_enabled = Returns 1 /\
  final_world Scenario.env_no_url Scenario.world_enabled = Scenario.world_enabled /\
  calls (trace Scenario.env_no_url Scenario.world_enabled)
    = [LoadConfig; FetchBingWallpaperInfo "en-US"].
Proof.
  pose proof (fetch_failure_aborts Scenario.env_no_url Scenario.world_enabled
                Scenario.config_enabled eq_refl eq_refl eq_refl eq_refl)
    as (Hx & Hw & Hc & _).
  exact (conj Hx (conj Hw Hc)).
Defined.

(** C5. When the file named from the image's date and [full_url] is
    already in the wallpaper directory, the run makes no download call
    and applies that file. *)
Theorem existing_file_reused env w config info date url dir filename :
  import_core env = Returns tt ->
  load_config env (config_file w) = Returns config ->
  ConfigParser.getboolean config "Settings" "enabled" false = Returns true ->
  fetch_bing_wallpaper_info env (region_of config) = Returns (Some info) ->
  has_full_url info = true ->
  last_update_date_of config <> today env ->
  ensure_wallpaper_dir env = Returns true ->
  get_wallpaper_dir env = Returns dir ->
  info !! "date" = Some date ->
  info !! "full_url" = Some url ->
  get_bing_filename env date url = Returns filename ->
  path_join dir filename ∈ files w ->
  count_calls is_download (trace env w) = 0%nat /\
  SetGnomeWallpaper (path_join dir filename) ∈ trace env w /\
  Log INFO ("Headless: Image " +:+ filename +:+ " already exists. Using existing file.")
    ∈ trace env w.
Proof.
  intros Hi Hl He Hf Hu Hd Hdir Hwd Hdate Hurl Hname Hfile.
  destruct w as [c f].
  apply String.eqb_neq in Hd.
  apply dict_subscript_lookup in Hdate, Hurl.
  apply (bool_decide_eq_true_2 _) in Hfile.
  run_cases env c f.
  all: split; [reflexivity|]; split; elem_solve.
Qed.

Lemma existing_file_reused_witness :
  count_calls is_download (trace Scenario.env_ok Scenario.world_cached) = 0%nat /\
  SetGnomeWallpaper Scenario.saved ∈ trace Scenario.env_ok Scenario.world_cached.
Proof.
  pose proof (existing_file_reused Scenario.env_ok Scenario.world_cached
                Scenario.config_enabled Scenario.info
                (VStr "2024-01-01") (VStr "https://x/img.jpg") "/w" "2024-01-01_bing.jpg")
    as H.
  destruct H as (Hn & Ha & _); try reflexivity.
  - vm_compute. discriminate.
  - exact (conj Hn Ha).
Defined.

(** C6. The freshness test compares [last_update_date] with the
    wall-clock date of the run and never looks at the date of the fetched
    image: equal, the run stops with success; different, it goes on to the
    update.  The value a run writes to [last_update_date] is that same
    wall-clock date, and it is written whenever the apply call returned
    true; the file name is asked for with the image's own date. *)
Theorem freshness_uses_wall_clock env w config info :
  import_core env = Returns tt ->
  load_config env (config_file w) = Returns config ->
  ConfigParser.getboolean config "Settings" "enabled" false = Returns true ->
  fetch_bing_wallpaper_info env (region_of config) = Returns (Some info) ->
  has_full_url info = true ->
  (last_update_date_of config = today env ->
   exit_code env w = Returns 0 /\ final_world env w = w /\
   calls (trace env w) = [LoadConfig; FetchBingWallpaperInfo (region_of config)]) /\
  (last_update_date_of config <> today env -> EnsureWallpaperDir ∈ trace env w) /\
  (forall s k v, SetSetting s k v ∈ trace env w ->
     s = "State" /\ k = "last_update_date" /\ v = today env) /\
  (forall p, SetGnomeWallpaper p ∈ trace env w ->
     set_gnome_wallpaper env p = Returns true ->
     SetSetting "State" "last_update_date" (today env) ∈ trace env w) /\
  (forall d u, GetBingFilename d u ∈ trace env w ->
     info !! "date" = Some d /\ info !! "full_url" = Some u).
Proof.
  intros Hi Hl He Hf Hu.
  enough
    ((last_update_date_of config = today env ->
      exit_code env w = Returns 0 /\ final_world env w = w /\
      calls (trace env w) = [LoadConfig; FetchBingWallpaperInfo (region_of config)]) /\
     (last_update_date_of config <> today env -> EnsureWallpaperDir ∈ trace env w) /\
     (forall s k v, List.find is_state_write (trace env w) = Some (SetSetting s k v) ->
        s = "State" /\ k = "last_update_date" /\ v = today env) /\
     (forall p, List.find is_apply (trace env w) = Some (SetGnomeWallpaper p) ->
        set_gnome_wallpaper env p = Returns true ->
        SetSetting "State" "last_update_date" (today env) ∈ trace env w) /\
     (forall d u, List.find is_filename (trace env w) = Some (GetBingFilename d u) ->
        dict_subscript info "date" = Returns d /\
        dict_subscript info "full_url" = Returns u))
    as (H1 & H2 & H3 & H4 & H5).
  { split; [assumption|split; [assumption|split; [|split]]].
    - intros s k v H. locate H is_state_write. by apply H3.
    - intros p H. locate H is_apply. by apply H4.
    - intros d u H. locate H is_filename. apply H5 in H as [Hd Hurl].
      unfold dict_subscript in Hd, Hurl.
      destruct (info !! "date"), (info !! "full_url"); by simplify_eq. }
  destruct w as [c f].
  destruct (String.eqb_spec (last_update_date_of config) (today env)) as [Heq|Hne].
  - pose proof Heq as Hkeep. apply String.eqb_eq in Heq. run_cases env c f.
    split; [auto|]. split; [done|].
    split; [intros s k v H; find_in H; discriminate H|].
    split; [intros p H; find_in H; discriminate H|].
    intros d u H; find_in H; discriminate H.
  - pose proof Hne as Hkeep. apply String.eqb_neq in Hne. run_cases env c f.
    all: split; [done|]; split; [intros _; elem_solve|].
    all: split; [intros s k v H; find_in H; by simplify_eq|].
    all: split; [intros q H Hq; find_in H; simplify_eq;
                 first [congruence | elem_solve]|].
    all: intros d u H; find_in H; by simplify_eq.
Qed.

Lemma freshness_uses_wall_clock_witness :
  EnsureWallpaperDir ∈ trace Scenario.env_ok Scenario.world_enabled /\
  exit_code Scenario.env_ok Scenario.world_done = Returns 0.
Proof.
  pose proof (freshness_uses_wall_clock Scenario.env_ok Scenario.world_enabled
                Scenario.config_enabled Scenario.info
                eq_refl eq_refl eq_refl eq_refl eq_refl) as (_ & Hgo & _).
  pose proof (freshness_uses_wall_clock Scenario.env_ok Scenario.world_done
                Scenario.config_done Scenario.info
                eq_refl eq_refl eq_refl eq_refl eq_refl) as (Hstop & _).
  split.
  - apply Hgo. vm_compute. discriminate.
  - apply Hstop. reflexivity.
Defined.

(** C7, as stated, fails: when [set_setting] raises after a successful
    apply, the run returns exit code 1. *)
Lemma state_write_failure_not_tolerated :
  ~ state_write_failure_tolerated Scenario.env_write_raises Scenario.world_enabled.
Proof.
  intros H. specialize (H Scenario.saved).
  assert (exit_code Scenario.env_write_raises Scenario.world_enabled = Returns 0) as Hx.
  { apply H.
    - apply (bool_decide_unpack _). vm_compute. exact I.
    - reflexivity.
    - discriminate. }
  vm_compute in Hx. discriminate Hx.
Qed.

(** C7, amended.  Once the run has called [set_setting] for
    [last_update_date]: a value it returns, true or false, is dropped, and
    the run returns exit code 0 with no error record in the log as long as
    reading [keep_history] and pruning do not raise; an exception it raises
    is logged by the outer handler, pruning is skipped and the run returns
    exit code 1. *)
Theorem state_write_failure_verdict env w config :
  load_config env (config_file w) = Returns config ->
  SetSetting "State" "last_update_date" (today env) ∈ trace env w ->
  match (set_setting env "State" "last_update_date" (today env) (config_file w)).1 with
  | Returns _ =>
      forall k,
        ConfigParser.getint config "Settings" "keep_history" 7 = Returns k ->
        (forall fs, (cleanup_wallpaper_history env k fs).1 = Returns tt) ->
        exit_code env w = Returns 0 /\
        count_calls is_error_log (trace env w) = 0%nat
  | Raises e =>
      exit_code env w = Returns 1 /\
      Log CRITICAL ("Headless: An error occurred during the update process: " +:+ e)
        ∈ trace env w /\
      count_calls is_prune (trace env w) = 0%nat
  end.
Proof.
  intros Hl Hs. locate Hs is_state_write. destruct w as [c f].
  run_cases env c f; find_in Hs; try discriminate Hs.
  all: cbn [fst].
  all: try (split; [reflexivity|]; split; [elem_solve | reflexivity]).
  all: intros k Hk Hclean; simplify_eq.
  all: try match goal with
           | Hc : cleanup_wallpaper_history _ _ ?fs = _ |- _ =>
               specialize (Hclean fs); rewrite Hc in Hclean; discriminate Hclean
           end.
  all: split; reflexivity.
Qed.

Lemma state_write_failure_verdict_witness :
  exit_code Scenario.env_write_false Scenario.world_enabled = Returns 0 /\
  count_calls is_error_log (trace Scenario.env_write_false Scenario.world_enabled) = 0%nat.
Proof.
  assert (SetSetting "State" "last_update_date" (today Scenario.env_write_false)
            ∈ trace Scenario.env_write_false Scenario.world_enabled) as Hs
    by (apply (bool_decide_unpack _); vm_compute; exact I).
  exact (state_write_failure_verdict Scenario.env_write_false Scenario.world_enabled
           Scenario.config_enabled eq_refl Hs 7 eq_refl (fun _ => eq_refl)).
Defined.

(** C8, as stated, fails: with a [keep_history] that is not an integer
    the apply succeeds, pruning is never attempted and the run returns
    exit code 1. *)
Lemma prune_not_always_attempted :
  ~ prune_always_attempted Scenario.env_ok Scenario.world_bad_keep.
Proof.
  intros H. specialize (H Scenario.saved).
  assert (count_calls is_prune (trace Scenario.env_ok Scenario.world_bad_keep) = 1%nat
          /\ exit_code Scenario.env_ok Scenario.world_bad_keep = Returns 0) as [Hn _].
  { apply H.
    - apply (bool_decide_unpack _). vm_compute. exact I.
    - reflexivity. }
  vm_compute in Hn. discriminate Hn.
Qed.

(** C8, amended.  After an apply call that returned true, pruning is
    attempted with the configured [keep_history] once [set_setting] has
    returned and [keep_history] has been read as an integer; the run then
    returns exit code 0 when [cleanup_wallpaper_history] returns, whatever
    it has done, and exit code 1 when it raises.  When [keep_history]
    cannot be read as an integer pruning is not attempted and the run
    returns exit code 1. *)
Theorem prune_after_apply env w config p :
  load_config env (config_file w) = Returns config ->
  SetGnomeWallpaper p ∈ trace env w ->
  set_gnome_wallpaper env p = Returns true ->
  (forall b c' k,
     set_setting env "State" "last_update_date" (today env) (config_file w)
       = (Returns b, c') ->
     ConfigParser.getint config "Settings" "keep_history" 7 = Returns k ->
     CleanupWallpaperHistory k ∈ trace env w /\
     ((forall fs, (cleanup_wallpaper_history env k fs).1 = Returns tt) ->
      exit_code env w = Returns 0) /\
     (forall e, (forall fs, (cleanup_wallpaper_history env k fs).1 = Raises e) ->
      exit_code env w = Returns 1)) /\
  (forall e,
     ConfigParser.getint config "Settings" "keep_history" 7 = Raises e ->
     count_calls is_prune (trace env w) = 0%nat /\ exit_code env w = Returns 1).
Proof.
  intros Hl Hs Hok. locate Hs is_apply. destruct w as [c f].
  run_cases env c f; find_in Hs; try discriminate Hs.
  all: simplify_eq; try congruence.
  all: split; [| intros e He; first [congruence | by split]].
  all: intros b c' k Hset Hk; simplify_eq.
  all: split; [elem_solve|].
  all: split; [intros Hclean | intros e Hclean].
  all: try reflexivity.
  all: match goal with
       | Hc : cleanup_wallpaper_history _ _ ?fs = _ |- _ =>
           specialize (Hclean fs); rewrite Hc in Hclean; discriminate Hclean
       end.
Qed.

Lemma prune_after_apply_witness :
  CleanupWallpaperHistory 7 ∈ trace Scenario.env_ok Scenario.world_enabled /\
  exit_code Scenario.env_ok Scenario.world_enabled = Returns 0.
Proof.
  assert (SetGnomeWallpaper Scenario.saved ∈ trace Scenario.env_ok Scenario.world_enabled)
    as Hs by (apply (bool_decide_unpack _); vm_compute; exact I).
  pose proof (prune_after_apply Scenario.env_ok Scenario.world_enabled
                Scenario.config_enabled Scenario.saved eq_refl Hs eq_refl) as [H _].
  destruct (H true _ 7 eq_refl eq_refl) as (Hin & Hret & _).
  split; [exact Hin | apply Hret; intros fs; reflexivity].
Defined.

(** C9. The verdict and the final world of a run do not depend on the
    notification service: replacing it by any other, one that raises
    included, changes neither.  A run that reaches the notification call
    returns exit code 0, and an exception raised by the call is logged as
    a warning. *)
Theorem notification_failure_swallowed env w :
  (forall n,
     exit_code (with_send_notification env n) w = exit_code env w /\
     final_world (with_send_notification env n) w = final_world env w) /\
  (forall title body,
     SendNotification title body ∈ trace env w ->
     exit_code env w = Returns 0 /\
     forall e,
       send_notification env title body = Raises e ->
       Log WARNING ("Headless: Failed to send notification: " +:+ e) ∈ trace env w).
Proof.
  split.
  - intros n. destruct w as [c f].
    unfold exit_code, final_world.
    destruct (headless (with_send_notification env n) (mkWorld c f) [])
      as [[r2 w2] t2] eqn:Hrun2.
    run_cases env c f.
    all: unfold headless, update_check in Hrun2; mcbv Hrun2; proj_red Hrun2.
    all: repeat (run_step Hrun2; try proj_red Hrun2).
    all: by simplify_eq.
  - intros title body Hn. locate Hn is_notify. destruct w as [c f].
    run_cases env c f; find_in Hn; try discriminate Hn.
    all: simplify_eq.
    all: split; [reflexivity|]; intros e He; try congruence.
    all: match goal with
         | H1 : ?x = Raises ?a, H2 : ?x = Raises ?b |- _ =>
             assert (a = b) by congruence; subst a
         end.
    all: elem_solve.
Qed.

Lemma notification_failure_swallowed_witness :
  exit_code (with_send_notification Scenario.env_ok Scenario.no_notifier)
    Scenario.world_enabled = Returns 0 /\
  Log WARNING
    "Headless: Failed to send notification: [Errno 2] No such file or directory: 'notify-send'"
    ∈ trace (with_send_notification Scenario.env_ok Scenario.no_notifier)
        Scenario.world_enabled.
Proof.
  pose proof (proj2 (notification_failure_swallowed
                       (with_send_notification Scenario.env_ok Scenario.no_notifier)
                       Scenario.world_enabled)
                "ChromaDesk Update" "Wallpaper updated successfully to: T") as H.
  destruct H as [Hx Hlog].
  - apply (bool_decide_unpack _). vm_compute. exact I.
  - split; [exact Hx | exact (Hlog _ eq_refl)].
Defined.

(** C10. On every run with updates enabled the fetch is made before the
    freshness test: the trace opens with the same entries, ending in the
    fetch call, whatever [last_update_date] is; and when it already equals
    today's date a failed fetch still makes the run return exit code 1. *)
Theorem fetch_precedes_freshness env w config :
  import_core env = Returns tt ->
  load_config env (config_file w) = Returns config ->
  ConfigParser.getboolean config "Settings" "enabled" false = Returns true ->
  (exists rest, trace env w = enabled_prefix config ++ rest) /\
  (last_update_date_of config = today env ->
   fetch_failed (fetch_bing_wallpaper_info env (region_of config)) ->
   exit_code env w = Returns 1).
Proof.
  intros Hi Hl He. split.
  - destruct w as [c f]. unfold enabled_prefix.
    run_cases env c f; eexists; cbn [app]; reflexivity.
  - intros _ Hf. by destruct (fetch_failure_run env w config Hi Hl He Hf).
Qed.

Lemma fetch_precedes_freshness_witness :
  (exists rest, trace Scenario.env_no_url Scenario.world_done
                = enabled_prefix Scenario.config_done ++ rest) /\
  exit_code Scenario.env_no_url Scenario.world_done = Returns 1.
Proof.
  pose proof (fetch_precedes_freshness Scenario.env_no_url Scenario.world_done
                Scenario.config_done eq_refl eq_refl eq_refl) as [Hp Hx].
  split; [exact Hp | apply Hx; reflexivity].
Defined.

(** ** Further properties of the headless branch *)

Ltac count_more H :=
  cbv [count_calls calls until_apply List.filter length negb orb andb is_log is_fetch
       is_download is_apply is_state_write is_prune is_notify is_filename
       is_error_log is_ensure_dir] in H.


Ltac find_more H :=
  cbv [List.find is_fetch is_download is_apply is_state_write is_prune is_notify
       is_filename] in H.



(** X3. An [enabled] value that is not one of the boolean spellings is
    not read as "disabled": [getboolean] raises, the run returns exit code
    1 with the value named in the log, and nothing is fetched. *)
Theorem misspelt_enabled_fails env w config v :
  import_core env = Returns tt ->
  load_config env (config_file w) = Returns config ->
  config !! ("Settings", "enabled") = Some v ->
  ConfigParser.boolean_states (ConfigParser.lower v) = None ->
  exit_code env w = Returns 1 /\ final_world env w = w /\
  calls (trace env w) = [LoadConfig] /\
  Log CRITICAL ("Headless: An error occurred during the update process: "
                +:+ "Not a boolean: " +:+ v) ∈ trace env w.
Proof.
  intros Hi Hl Hv Hb.
  assert (ConfigParser.getboolean config "Settings" "enabled" false
          = Raises ("Not a boolean: " +:+ v)) as He.
  { unfold ConfigParser.getboolean, ConfigParser.convert_to_boolean.
    by rewrite Hv, Hb. }
  destruct w as [c f]. run_cases env c f; simplify_eq.
  split; [reflexivity|]. split; [reflexivity|]. split; [reflexivity|]. elem_solve.
Qed.

Lemma misspelt_enabled_fails_witness :
  exit_code Scenario.env_ok Cases.world_maybe = Returns 1 /\
  calls (trace Scenario.env_ok Cases.world_maybe) = [LoadConfig].
Proof.
  pose proof (misspelt_enabled_fails Scenario.env_ok Cases.world_maybe
                Cases.config_maybe "maybe" eq_refl eq_refl eq_refl eq_refl)
    as (Hx & _ & Hc & _).
  exact (conj Hx Hc).
Defined.

(** X4. A configuration with no [enabled] option counts as disabled: the
    run returns exit code 0 and only loads the configuration. *)
Theorem missing_enabled_means_disabled env w config :
  import_core env = Returns tt ->
  load_config env (config_file w) = Returns config ->
  config !! ("Settings", "enabled") = None ->
  exit_code env w = Returns 0 /\ final_world env w = w /\
  calls (trace env w) = [LoadConfig].
Proof.
  intros Hi Hl Hv.
  assert (ConfigParser.getboolean config "Settings" "enabled" false = Returns false) as He.
  { unfold ConfigParser.getboolean. by rewrite Hv. }
  destruct w as [c f]. run_cases env c f; auto.
Qed.

Lemma missing_enabled_means_disabled_witness :
  exit_code Scenario.env_ok Cases.world_empty = Returns 0 /\
  final_world Scenario.env_ok Cases.world_empty = Cases.world_empty /\
  calls (trace Scenario.env_ok Cases.world_empty) = [LoadConfig].
Proof.
  exact (missing_enabled_means_disabled Scenario.env_ok Cases.world_empty ∅
           eq_refl eq_refl eq_refl).
Defined.

(** X5. The fetch is made for the configured region, and for ["en-US"]
    when the configuration has none. *)
Theorem fetch_uses_configured_region env w config r :
  load_config env (config_file w) = Returns config ->
  FetchBingWallpaperInfo r ∈ trace env w ->
  r = default "en-US" (config !! ("Settings", "region")).
Proof.
  intros Hl Hr. locate Hr is_fetch. destruct w as [c f].
  run_cases env c f; find_in Hr; by simplify_eq.
Qed.

Lemma fetch_uses_configured_region_witness :
  "en-US" = default "en-US" (Cases.config_minimal !! ("Settings", "region")).
Proof.
  apply (fetch_uses_configured_region Scenario.env_ok Cases.world_minimal
           Cases.config_minimal "en-US" eq_refl).
  apply (bool_decide_unpack _). vm_compute. exact I.
Defined.

(** X6. Pruning is asked to keep the configured [keep_history], read as
    an integer, and 7 when the configuration has none. *)
Theorem prune_keeps_configured_count env w config k :
  load_config env (config_file w) = Returns config ->
  CleanupWallpaperHistory k ∈ trace env w ->
  match config !! ("Settings", "keep_history") with
  | None => k = 7
  | Some v => ConfigParser.py_int v = Returns k
  end.
Proof.
  intros Hl Hk. locate Hk is_prune. destruct w as [c f].
  run_cases env c f; find_in Hk; simplify_eq.
  all: match goal with
       | H : ConfigParser.getint _ _ _ _ = Returns _ |- _ =>
           unfold ConfigParser.getint in H
       end.
  all: destruct (config !! ("Settings", "keep_history")); by simplify_eq.
Qed.

Lemma prune_keeps_configured_count_witness :
  match Cases.config_minimal !! ("Settings", "keep_history") with
  | None => 7 = 7
  | Some v => ConfigParser.py_int v = Returns 7
  end.
Proof.
  apply (prune_keeps_configured_count Scenario.env_ok Cases.world_minimal
           Cases.config_minimal 7 eq_refl).
  apply (bool_decide_unpack _). vm_compute. exact I.
Defined.

(** X7. When the wallpaper directory cannot be made ready
    ([ensure_wallpaper_dir] returns false or raises) the run returns exit
    code 1 and leaves the world as it was, with no download, apply or
    state write; a false return is logged as the [RuntimeError] the branch
    raises for it. *)
Theorem directory_failure_aborts env w :
  EnsureWallpaperDir ∈ trace env w ->
  ensure_wallpaper_dir env <> Returns true ->
  exit_code env w = Returns 1 /\ final_world env w = w /\
  count_calls is_download (trace env w) = 0%nat /\
  count_calls is_apply (trace env w) = 0%nat /\
  count_calls is_state_write (trace env w) = 0%nat /\
  (ensure_wallpaper_dir env = Returns false ->
   Log CRITICAL ("Headless: An error occurred during the update process: "
                 +:+ "Headless: Cannot create wallpaper directory.") ∈ trace env w).
Proof.
  intros Hd Hne. apply (count_pos is_ensure_dir) in Hd; [|reflexivity].
  destruct w as [c f].
  run_cases env c f; count_more Hd; try lia; try congruence.
  all: repeat (split; [reflexivity|]).
  all: intros Hf; first [discriminate Hf | elem_solve].
Qed.

Lemma directory_failure_aborts_witness :
  exit_code Cases.env_no_dir Scenario.world_enabled = Returns 1 /\
  final_world Cases.env_no_dir Scenario.world_enabled = Scenario.world_enabled.
Proof.
  assert (EnsureWallpaperDir ∈ trace Cases.env_no_dir Scenario.world_enabled) as Hd
    by (apply (bool_decide_unpack _); vm_compute; exact I).
  assert (ensure_wallpaper_dir Cases.env_no_dir <> Returns true) as Hne by discriminate.
  pose proof (directory_failure_aborts Cases.env_no_dir Scenario.world_enabled Hd Hne)
    as (Hx & Hw & _).
  exact (conj Hx Hw).
Defined.

(** X8. A fetched dictionary with a [full_url] but no [date] makes the
    run fail on the subscript: exit code 1, the [KeyError] in the log, and
    no file name asked for, no download and no apply. *)
Theorem missing_date_fails env w config info dir :
  import_core env = Returns tt ->
  load_config env (config_file w) = Returns config ->
  ConfigParser.getboolean config "Settings" "enabled" false = Returns true ->
  fetch_bing_wallpaper_info env (region_of config) = Returns (Some info) ->
  has_full_url info = true ->
  last_update_date_of config <> today env ->
  ensure_wallpaper_dir env = Returns true ->
  get_wallpaper_dir env = Returns dir ->
  info !! "date" = None ->
  exit_code env w = Returns 1 /\ final_world env w = w /\
  calls (trace env w) =
    [LoadConfig; FetchBingWallpaperInfo (region_of config);
     EnsureWallpaperDir; GetWallpaperDir] /\
  Log CRITICAL ("Headless: An error occurred during the update process: " +:+ "'date'")
    ∈ trace env w.
Proof.
  intros Hi Hl He Hf Hu Hd Hdir Hwd Hdate.
  assert (dict_subscript info "date" = Raises "'date'") as Hsub
    by (unfold dict_subscript; by rewrite Hdate).
  apply String.eqb_neq in Hd. destruct w as [c f].
  run_cases env c f; simplify_eq.
  repeat (split; [reflexivity|]). elem_solve.
Qed.

Lemma missing_date_fails_witness :
  exit_code Cases.env_bare_info Scenario.world_enabled = Returns 1 /\
  final_world Cases.env_bare_info Scenario.world_enabled = Scenario.world_enabled.
Proof.
  assert (last_update_date_of Scenario.config_enabled <> today Cases.env_bare_info)
    as Hne by (vm_compute; discriminate).
  pose proof (missing_date_fails Cases.env_bare_info Scenario.world_enabled
                Scenario.config_enabled Cases.info_bare "/w"
                eq_refl eq_refl eq_refl eq_refl eq_refl Hne eq_refl eq_refl eq_refl)
    as (Hx & Hw & _).
  exact (conj Hx Hw).
Defined.

(** X9. When the download does not return true (it returns false or
    raises) the run returns exit code 1 without applying anything and
    without recording the day. *)
Theorem download_failure_aborts env w url path :
  DownloadImage url path ∈ trace env w ->
  (download_image env url path (files w)).1 <> Returns true ->
  exit_code env w = Returns 1 /\
  config_file (final_world env w) = config_file w /\
  count_calls is_apply (trace env w) = 0%nat /\
  count_calls is_state_write (trace env w) = 0%nat /\
  count_calls is_prune (trace env w) = 0%nat.
Proof.
  intros Hd Hne. locate Hd is_download. destruct w as [c f].
  run_cases env c f; find_more Hd; simplify_eq.
  all: match goal with
       | H : download_image _ _ _ _ = _ |- _ => rewrite H in Hne; cbn [fst] in Hne
       end.
  all: try congruence.
  all: repeat split; reflexivity.
Qed.

Lemma download_failure_aborts_witness :
  exit_code Cases.env_no_download Scenario.world_enabled = Returns 1 /\
  count_calls is_apply (trace Cases.env_no_download Scenario.world_enabled) = 0%nat.
Proof.
  assert (DownloadImage (VStr "https://x/img.jpg") Scenario.saved
            ∈ trace Cases.env_no_download Scenario.world_enabled) as Hd
    by (apply (bool_decide_unpack _); vm_compute; exact I).
  assert ((download_image Cases.env_no_download (VStr "https://x/img.jpg") Scenario.saved
             (files Scenario.world_enabled)).1 <> Returns true) as Hne by discriminate.
  pose proof (download_failure_aborts Cases.env_no_download Scenario.world_enabled
                _ _ Hd Hne) as (Hx & _ & Ha & _).
  exact (conj Hx Ha).
Defined.

(** X10. What exit code 0 means: either the run applied nothing and left
    the world as it was (updates disabled, or already done today), or the
    apply call returned true and the state write, the pruning and the
    notification were each attempted once. *)
Theorem success_means_noop_or_applied env w :
  exit_code env w = Returns 0 ->
  (count_calls is_apply (trace env w) = 0%nat /\
   count_calls is_download (trace env w) = 0%nat /\
   final_world env w = w) \/
  (exists p,
     SetGnomeWallpaper p ∈ trace env w /\
     set_gnome_wallpaper env p = Returns true /\
     count_calls is_state_write (trace env w) = 1%nat /\
     count_calls is_prune (trace env w) = 1%nat /\
     count_calls is_notify (trace env w) = 1%nat).
Proof.
  intros Hx. destruct w as [c f].
  run_cases env c f; try discriminate Hx.
  all: first
    [ left; repeat split; reflexivity
    | right; eexists; split; [elem_solve|]; split; [eassumption|];
      repeat split; reflexivity ].
Qed.

Lemma success_means_noop_or_applied_witness :
  (count_calls is_apply (trace Scenario.env_ok Scenario.world_enabled) = 0%nat /\
   count_calls is_download (trace Scenario.env_ok Scenario.world_enabled) = 0%nat /\
   final_world Scenario.env_ok Scenario.world_enabled = Scenario.world_enabled) \/
  (exists p,
     SetGnomeWallpaper p ∈ trace Scenario.env_ok Scenario.world_enabled /\
     set_gnome_wallpaper Scenario.env_ok p = Returns true /\
     count_calls is_state_write (trace Scenario.env_ok Scenario.world_enabled) = 1%nat /\
     count_calls is_prune (trace Scenario.env_ok Scenario.world_enabled) = 1%nat /\
     count_calls is_notify (trace Scenario.env_ok Scenario.world_enabled) = 1%nat).
Proof.
  apply (success_means_noop_or_applied Scenario.env_ok Scenario.world_enabled).
  reflexivity.
Defined.



Lemma dict_subscript_returns (d : gmap string pyval) k v :
  dict_subscript d k = Returns v -> d !! k = Some v.
Proof. unfold dict_subscript. destruct (d !! k); by intros; simplify_eq. Qed.

(** X12. A download is made only when the file is not yet on disk; it is
    made from the fetched [full_url] to the path built from the wallpaper
    directory and the name derived from the image's date and URL, and that
    path is the one applied afterwards. *)
Theorem download_only_when_absent env w url path :
  DownloadImage url path ∈ trace env w ->
  (path ∉ files w) /\
  (forall q, SetGnomeWallpaper q ∈ trace env w -> q = path) /\
  exists config info dir date filename,
    load_config env (config_file w) = Returns config /\
    fetch_bing_wallpaper_info env (region_of config) = Returns (Some info) /\
    info !! "full_url" = Some url /\ info !! "date" = Some date /\
    get_wallpaper_dir env = Returns dir /\
    get_bing_filename env date url = Returns filename /\
    path = path_join dir filename.
Proof.
  intros Hd.
  enough
    ((path ∉ files w) /\
     (forall q, List.find is_apply (trace env w) = Some (SetGnomeWallpaper q) -> q = path) /\
     exists config info dir date filename,
       load_config env (config_file w) = Returns config /\
       fetch_bing_wallpaper_info env (region_of config) = Returns (Some info) /\
       dict_subscript info "full_url" = Returns url /\
       dict_subscript info "date" = Returns date /\
       get_wallpaper_dir env = Returns dir /\
       get_bing_filename env date url = Returns filename /\
       path = path_join dir filename)
    as (H1 & H2 & (config & info & dir & date & filename & H3)).
  { split; [assumption|]. split.
    - intros q Hq. locate Hq is_apply. by apply H2.
    - exists config, info, dir, date, filename.
      destruct H3 as (Hl & Hf & Hu & Hdt & Hrest).
      apply dict_subscript_returns in Hu, Hdt. auto. }
  locate Hd is_download. destruct w as [c f].
  run_cases env c f; find_more Hd; simplify_eq.
  all: split; [eapply bool_decide_eq_false_1; eassumption|].
  all: split; [intros q Hq; find_more Hq; by simplify_eq|].
  all: do 5 eexists; repeat split; eassumption.
Qed.

Lemma download_only_when_absent_witness :
  Scenario.saved ∉ files Scenario.world_enabled.
Proof.
  assert (DownloadImage (VStr "https://x/img.jpg") Scenario.saved
            ∈ trace Scenario.env_ok Scenario.world_enabled) as Hd
    by (apply (bool_decide_unpack _); vm_compute; exact I).
  exact (proj1 (download_only_when_absent Scenario.env_ok Scenario.world_enabled _ _ Hd)).
Defined.

(** X13. A run in which every step succeeds and the image is not yet on
    disk: the collaborators are called once each, in this order, the
    download wrote the files that pruning then works on, the final world
    holds the configuration left by [set_setting] and the files left by
    pruning, and the exit code is 0 whatever the notification call does. *)
Theorem full_update_run env w config info date url dir filename fs1 cfg1 b k fs2 :
  import_core env = Returns tt ->
  load_config env (config_file w) = Returns config ->
  ConfigParser.getboolean config "Settings" "enabled" false = Returns true ->
  fetch_bing_wallpaper_info env (region_of config) = Returns (Some info) ->
  has_full_url info = true ->
  last_update_date_of config <> today env ->
  ensure_wallpaper_dir env = Returns true ->
  get_wallpaper_dir env = Returns dir ->
  info !! "date" = Some date ->
  info !! "full_url" = Some url ->
  get_bing_filename env date url = Returns filename ->
  path_join dir filename ∉ files w ->
  download_image env url (path_join dir filename) (files w) = (Returns true, fs1) ->
  set_gnome_wallpaper env (path_join dir filename) = Returns true ->
  set_setting env "State" "last_update_date" (today env) (config_file w)
    = (Returns b, cfg1) ->
  ConfigParser.getint config "Settings" "keep_history" 7 = Returns k ->
  cleanup_wallpaper_history env k fs1 = (Returns tt, fs2) ->
  exit_code env w = Returns 0 /\
  final_world env w = {| config_file := cfg1; files := fs2 |} /\
  calls (trace env w) =
    [ LoadConfig; FetchBingWallpaperInfo (region_of config);
      EnsureWallpaperDir; GetWallpaperDir; GetBingFilename date url;
      IsFile (path_join dir filename);
      DownloadImage url (path_join dir filename);
      SetGnomeWallpaper (path_join dir filename);
      SetSetting "State" "last_update_date" (today env);
      CleanupWallpaperHistory k;
      SendNotification "ChromaDesk Update" (notification_body info) ].
Proof.
  intros Hi Hl He Hf Hu Hd Hdir Hwd Hdate Hurl Hname Hfile Hdl Hset Hst Hk Hcl.
  destruct w as [c f].
  apply String.eqb_neq in Hd.
  apply dict_subscript_lookup in Hdate, Hurl.
  apply (bool_decide_eq_false_2 _) in Hfile.
  run_cases env c f; simplify_eq; auto.
Qed.

Lemma full_update_run_witness :
  exit_code Scenario.env_ok Scenario.world_enabled = Returns 0 /\
  final_world Scenario.env_ok Scenario.world_enabled
    = {| config_file := Scenario.config_done; files := {[Scenario.saved]} ∪ ∅ |}.
Proof.
  assert (last_update_date_of Scenario.config_enabled <> today Scenario.env_ok)
    as Hne by (vm_compute; discriminate).
  assert (path_join "/w" "2024-01-01_bing.jpg" ∉ files Scenario.world_enabled)
    as Hfile by (apply (bool_decide_unpack _); vm_compute; exact I).
  pose proof (full_update_run Scenario.env_ok Scenario.world_enabled
                Scenario.config_enabled Scenario.info
                (VStr "2024-01-01") (VStr "https://x/img.jpg") "/w" "2024-01-01_bing.jpg"
                ({[Scenario.saved]} ∪ ∅) Scenario.config_done true 7 ({[Scenario.saved]} ∪ ∅)
                eq_refl eq_refl eq_refl eq_refl eq_refl Hne eq_refl eq_refl eq_refl eq_refl
                eq_refl Hfile eq_refl eq_refl eq_refl eq_refl eq_refl)
    as (Hx & Hw & _).
  exact (conj Hx Hw).
Defined.

(** X14. The notification sent after an update has the fixed title and
    names the image by the title of the fetched dictionary, or by
    ["Unknown Title"] when the dictionary has none. *)
Theorem notification_names_the_image env w config title body :
  load_config env (config_file w) = Returns config ->
  SendNotification title body ∈ trace env w ->
  exists info,
    fetch_bing_wallpaper_info env (region_of config) = Returns (Some info) /\
    title = "ChromaDesk Update" /\ body = notification_body info /\
    (info !! "title" = None ->
     body = "Wallpaper updated successfully to: Unknown Title").
Proof.
  intros Hl Hn. locate Hn is_notify. destruct w as [c f].
  run_cases env c f; find_more Hn; simplify_eq.
  all: eexists; split; [reflexivity|]; split; [reflexivity|]; split; [reflexivity|].
  all: intros Ht; unfold dict_get_default; by rewrite Ht.
Qed.

Lemma notification_names_the_image_witness :
  exists info,
    fetch_bing_wallpaper_info Cases.env_untitled (region_of Scenario.config_enabled)
      = Returns (Some info) /\
    "ChromaDesk Update" = "ChromaDesk Update" /\
    "Wallpaper updated successfully to: Unknown Title" = notification_body info /\
    (info !! "title" = None ->
     "Wallpaper updated successfully to: Unknown Title"
     = "Wallpaper updated successfully to: Unknown Title").
Proof.
  apply (notification_names_the_image Cases.env_untitled Scenario.world_enabled
           Scenario.config_enabled "ChromaDesk Update"
           "Wallpaper updated successfully to: Unknown Title" eq_refl).
  apply (bool_decide_unpack _). vm_compute. exact I.
Defined.

(** ** Properties of the dispatch and of the other branches of [main()] *)

Ltac main_cbv H :=
  cbv [mbind mret MainM_bind MainM_ret main_raise main_try main_log main_print
       main_call main_call_cfg main_call_world run_core config_file files] in H.

Ltac main_step H :=
  match type of H with
  | context [match ?o with Returns _ => _ | Raises _ => _ end] => destruct o eqn:?
  | context [if ?b then _ else _] => destruct b eqn:?
  | context [create_default_config_if_missing ?e ?c] =>
      destruct (create_default_config_if_missing e c) eqn:?
  | context [set_setting ?e ?s ?k ?v ?c] => destruct (set_setting e s k v c) eqn:?
  | context [app_exec ?e ?w] => destruct (app_exec e w) eqn:?
  end; cbv beta iota in H; prune.

Ltac main_walk H :=
  main_cbv H; repeat main_step H; cbn [app fst snd] in *.

(** X15. No retries: a run calls each collaborator at most once, and a
    run with updates enabled makes exactly one fetch. *)
Theorem no_retries env w :
  (count_calls is_fetch (trace env w) <= 1)%nat /\
  (count_calls is_download (trace env w) <= 1)%nat /\
  (count_calls is_apply (trace env w) <= 1)%nat /\
  (count_calls is_state_write (trace env w) <= 1)%nat /\
  (count_calls is_prune (trace env w) <= 1)%nat /\
  (count_calls is_notify (trace env w) <= 1)%nat /\
  (forall config,
     import_core env = Returns tt ->
     load_config env (config_file w) = Returns config ->
     ConfigParser.getboolean config "Settings" "enabled" false = Returns true ->
     count_calls is_fetch (trace env w) = 1%nat).
Proof.
  pose proof (calls_once env w) as (H1 & H2 & H3 & H4 & H5 & H6 & _).
  repeat (split; [assumption|]).
  clear. intros config Hi Hl He. destruct w as [c f].
  run_cases env c f; reflexivity.
Qed.

Lemma no_retries_witness :
  count_calls is_fetch (trace Scenario.env_ok Scenario.world_enabled) = 1%nat.
Proof.
  pose proof (no_retries Scenario.env_ok Scenario.world_enabled)
    as (_ & _ & _ & _ & _ & _ & H).
  exact (H Scenario.config_enabled eq_refl eq_refl eq_refl).
Defined.



(** X17. [--internal-set-config SECTION KEY VALUE] takes precedence over
    every other mode and runs nothing of the pipeline or the GUI.  Its
    exit code is 0 exactly when the configuration directory and the
    default file were made ready and [set_setting], called with the three
    given values on the file left by [create_default_config_if_missing],
    returned true; otherwise it is 1. *)
Theorem set_config_command_verdict menv args w section key value :
  args_internal_set_config args = Some (section, key, value) ->
  ((main menv args w []).1.1 = Returns (Some 0) \/
   (main menv args w []).1.1 = Returns (Some 1)) /\
  ((main menv args w []).1.1 = Returns (Some 0) <->
   ensure_config_dir_exists menv = Returns true /\
   exists c1 c2,
     create_default_config_if_missing menv (config_file w) = (Returns true, c1) /\
     set_setting (core menv) section key value c1 = (Returns true, c2) /\
     (main menv args w []).1.2 = {| config_file := c2; files := files w |}) /\
  (exists n,
     main_calls (main menv args w []).2 =
       take n [EnsureConfigDirExists; CreateDefaultConfigIfMissing;
               Core (SetSetting section key value)]).
Proof.
  intros Hi. destruct w as [c f].
  destruct (main menv args (mkWorld c f) []) as [[r w1] t1] eqn:Hrun.
  unfold main, set_config_command in Hrun. rewrite Hi in Hrun.
  cbn [config_file files fst snd].
  main_walk Hrun.
  all: split; [auto|]; split.
  all: try (split; [intros Hx; try discriminate Hx
                   | intros (Hd & c1 & c2 & Hc & Hs & Hw); simplify_eq]).
  all: try (split; [reflexivity|]; do 2 eexists;
            split; [reflexivity|split; [eassumption|reflexivity]]).
  all: try congruence.
  all: first [ exists 3%nat; reflexivity | exists 2%nat; reflexivity
             | exists 1%nat; reflexivity | exists 0%nat; reflexivity ].
Qed.

Lemma set_config_command_verdict_witness :
  (main Cases.menv_ok Cases.args_set_region Scenario.world_enabled []).1.1
    = Returns (Some 0) \/
  (main Cases.menv_ok Cases.args_set_region Scenario.world_enabled []).1.1
    = Returns (Some 1).
Proof.
  exact (proj1 (set_config_command_verdict Cases.menv_ok Cases.args_set_region
                  Scenario.world_enabled "Settings" "region" "fr-FR" eq_refl)).
Defined.

(** X18. [--version] (without [--internal-set-config]) wins over
    [--headless] and [--gui]: [main()] looks the version up, prints one
    line, the version or ["version unknown"] when the lookup raises, and
    returns 0 without touching the world. *)
Theorem version_flag_only_prints menv args w :
  args_internal_set_config args = None ->
  args_version args = true ->
  main menv args w [] =
    (Returns (Some 0), w,
     [ GetVersion "chromadesk";
       Print match get_version menv "chromadesk" with
             | Returns ver => "ChromaDesk version " +:+ ver
             | Raises _ => "ChromaDesk (version unknown)"
             end ]).
Proof.
  intros Hi Hv. unfold main, version_command. rewrite Hi, Hv.
  cbv [mbind mret MainM_bind MainM_ret main_try main_call main_print].
  destruct (get_version menv "chromadesk"); reflexivity.
Qed.

Lemma version_flag_only_prints_witness :
  main Cases.menv_ok Cases.args_version_headless Scenario.world_enabled [] =
    (Returns (Some 0), Scenario.world_enabled,
     [GetVersion "chromadesk"; Print "ChromaDesk version 0.2.0"]).
Proof.
  exact (version_flag_only_prints Cases.menv_ok Cases.args_version_headless
           Scenario.world_enabled eq_refl eq_refl).
Defined.






